(** * rauk-inventory client: command encoding, transport and error paths

    A shallow embedding of [src/core/rauk-client.ts] (class
    [RaukInventoryClient]) and of the two revisions of [src/index.ts] (class
    [RaukInventory]) that the source tree holds.

    Conventions of the embedding:
    - a JavaScript value that travels in a command tuple or comes back in a
      response body is a [JSON] tree; an object is the list of its own
      properties in enumeration order; numbers are restricted to integers;
    - a promise is represented by the way it settles ([Settled]);
    - an [async] method is a function from the [World] (the log of the calls
      made to [fetch] and the lines written to the console) to its
      settlement and the new world;
    - [JSON.stringify], [fetch] and the repository's [signRequest] (imported
      from [utils/sign-request] by [rauk-client.ts] and from
      [utils/api-request] by [index.ts], neither part of the source tree) are
      the fields of the [Host] class: every general theorem holds for all of
      them, and no statement compares the signatures of two classes. *)

From Stdlib Require Import String Ascii List ZArith Bool Lia.
From Stdlib Require Import DecimalString.
Import ListNotations.

Local Open Scope string_scope.
Local Open Scope list_scope.
Set Warnings "-register-all".

(** ** Values *)

Inductive JSON : Type :=
| JNull
| JBool (b : bool)
| JNum (n : Z)
| JStr (s : string)
| JArr (elements : list JSON)
| JObj (properties : list (string * JSON)).

(** An object: its own enumerable properties, in enumeration order. *)
Definition Obj : Type := list (string * JSON).

Fixpoint lookup (k : string) (o : Obj) : option JSON :=
  match o with
  | [] => None
  | (k', v) :: rest => if String.eqb k' k then Some v else lookup k rest
  end.

(** [{ ...o, k: v }] once [o] has been spread: an existing property keeps its
    place and takes the new value, a new one goes last. *)
Fixpoint set_prop (k : string) (v : JSON) (o : Obj) : Obj :=
  match o with
  | [] => [(k, v)]
  | (k', v') :: rest =>
      if String.eqb k' k then (k', v) :: rest else (k', v') :: set_prop k v rest
  end.

(** [...options] for [options?: OperationRequestOptions]: spreading
    [undefined] contributes no property. *)
Definition spread (options : option Obj) : Obj :=
  match options with
  | Some o => o
  | None => []
  end.

(** [v.k] for a parsed body [v] that is not [null]; [None] is [undefined].
    Only used with keys that no array or primitive owns. *)
Definition get_prop (v : JSON) (k : string) : option JSON :=
  match v with
  | JObj o => lookup k o
  | _ => None
  end.

(** The decimal digits of an integer, as [Number.prototype.toString] prints
    the integers it prints without an exponent. *)
Definition string_of_Z (n : Z) : string := NilZero.string_of_int (Z.to_int n).

(** The one-character string that holds a double quote. *)
Definition double_quote : string := String (ascii_of_nat 34) EmptyString.

(** ECMAScript [ToString] on the values above ([Array.prototype.join] prints
    [null] elements as the empty string). *)
Fixpoint ToString (v : JSON) : string :=
  match v with
  | JNull => "null"
  | JBool true => "true"
  | JBool false => "false"
  | JNum n => string_of_Z n
  | JStr s => s
  | JArr l =>
      (fix join (l : list JSON) : string :=
         match l with
         | [] => ""
         | x :: rest =>
             ((match x with JNull => "" | _ => ToString x end)
              ++ (match rest with [] => "" | _ => "," ++ join rest end))%string
         end) l
  | JObj _ => "[object Object]"
  end.

(** ** Errors and promises *)

(** A thrown [Error] object: the name of its constructor and its message. *)
Record JsError : Type := mkJsError { name : string; message : string }.

Definition Error (msg : string) : JsError := mkJsError "Error" msg.
Definition TypeError (msg : string) : JsError := mkJsError "TypeError" msg.

(** [new Error(m)]: an [undefined] argument leaves the message empty. *)
Definition new_Error (m : option JSON) : JsError :=
  Error (match m with None => "" | Some v => ToString v end).

(** How a promise settles. *)
Inductive Settled (A : Type) : Type :=
| Resolved (a : A)
| Rejected (e : JsError).
Arguments Resolved {A} a.
Arguments Rejected {A} e.

(** ** The transport *)

Record HttpRequest : Type := mkHttpRequest {
  url : string;
  method : string;
  body : option string;
  headers : list (string * string)
}.

(** The part of a [Response] the client reads; [json] is how the promise
    returned by [response.json()] settles. *)
Record Response : Type := mkResponse {
  ok : bool;
  status : Z;
  statusText : string;
  json : Settled JSON
}.

Record Credentials : Type := mkCredentials {
  cred_apiKeyId : string;
  cred_apiSecret : string;
  cred_apiPublicKey : string
}.

Class Host : Type := {
  JSON_stringify : list JSON -> string;
  signRequest : Credentials -> list JSON -> string;
  fetch : HttpRequest -> Settled Response
}.

(** ** The world and asynchronous computations *)

Inductive ConsoleArg : Type :=
| LogStr (s : string)
| LogJSON (v : JSON)
| LogErr (e : JsError).

Record World : Type := mkWorld {
  calls : list HttpRequest;
  console : list ConsoleArg
}.

Definition Async (A : Type) : Type := World -> Settled A * World.

Definition ret {A : Type} (a : A) : Async A := fun w => (Resolved a, w).

Definition throw {A : Type} (e : JsError) : Async A := fun w => (Rejected e, w).

Definition bind {A B : Type} (m : Async A) (k : A -> Async B) : Async B :=
  fun w =>
    match m w with
    | (Resolved a, w') => k a w'
    | (Rejected e, w') => (Rejected e, w')
    end.

(** [try { m } catch (error) { h error }] *)
Definition try_catch {A : Type} (m : Async A) (h : JsError -> Async A) : Async A :=
  fun w =>
    match m w with
    | (Resolved a, w') => (Resolved a, w')
    | (Rejected e, w') => h e w'
    end.

(** [await p], and also what an [async] function does with a promise it
    returns: its own promise settles the way [p] does. *)
Definition await {A : Type} (p : Settled A) : Async A := fun w => (p, w).

Definition console_error (a : ConsoleArg) : Async unit :=
  fun w => (Resolved tt, mkWorld (calls w) (console w ++ [a])).

(** A call of the global [fetch]: the request is issued (and recorded), the
    host decides how the returned promise settles. *)
Definition call_fetch `{Host} (req : HttpRequest) : Async (Settled Response) :=
  fun w => (Resolved (fetch req), mkWorld (calls w ++ [req]) (console w)).

Declare Scope async_scope.
Delimit Scope async_scope with async.
Notation "x <- m ;; k" := (bind m (fun x => k))
  (at level 61, m at next level, right associativity) : async_scope.
Notation "m ;; k" := (bind m (fun _ => k))
  (at level 61, right associativity) : async_scope.
Local Open Scope async_scope.

(** The settlement and the final world of a computation. *)
Definition outcome {A : Type} (m : Async A) (w : World) : Settled A := fst (m w).
Definition after {A : Type} (m : Async A) (w : World) : World := snd (m w).

(** ** Construction parameters, shared by the three classes *)

Record Config : Type := mkConfig {
  cfg_apiKeyId : string;
  cfg_apiSecret : string;
  cfg_apiPublicKey : string;
  cfg_apiBaseUrl : option string
}.

(** [!s] for a string [s]. *)
Definition is_empty (s : string) : bool :=
  match s with
  | EmptyString => true
  | String _ _ => false
  end.

Definition required_message : string :=
  "apiKeyId, apiSecret and apiPublicKey are required".

Definition production_host : string := "https://inventory.rauk.app".

(** [results.length > 0 ? results[0] : null] for [results: InventoryItem[]]. *)
Definition first_or_null (results : list JSON) : JSON :=
  match results with
  | x :: _ => x
  | [] => JNull
  end.

(** The message V8 gives the [TypeError] of a property read on [null]. *)
Definition null_read_message : string :=
  "Cannot read properties of null (reading 'error')".

(** [new Error(jsonError.error?.message)]: evaluating the argument throws
    when the parsed body is [null]. *)
Definition error_of_body (jsonError : JSON) : Async JsError :=
  match jsonError with
  | JNull => throw (TypeError null_read_message)
  | _ =>
      ret (new_Error
             (match get_prop jsonError "error" with
              | None => None
              | Some JNull => None
              | Some e => get_prop e "message"
              end))
  end.

(** [find] is declared to resolve to [InventoryItem[]]; the source does not
    check it. [items_of] is the view of the resolved value as that array.
    A body that is not an array is outside the declared type: [null] makes
    [results.length] throw a [TypeError]; a value without a [length]
    (a number, a boolean, an object that owns no such property) has no
    items. A string or an object that owns a [length] property is read as
    having no items too, which is not what the engine computes for those
    two shapes; no statement below depends on them. *)
Definition items_of (results : JSON) : Async (list JSON) :=
  match results with
  | JArr l => ret l
  | JNull => throw (TypeError "Cannot read properties of null (reading 'length')")
  | _ => ret []
  end.

(** ** [src/core/rauk-client.ts]: class [RaukInventoryClient] *)

Module RaukInventoryClient.

Record Client : Type := mkClient {
  apiKeyId : string;
  apiSecret : string;
  apiPublicKey : string;
  apiBaseUrl : string
}.

(** The constructor is synchronous: it throws ([inl]) or yields the
    instance ([inr]); [apiBaseUrl] has a default value. *)
Definition constructor (cfg : Config) : JsError + Client :=
  if is_empty (cfg_apiKeyId cfg) || is_empty (cfg_apiSecret cfg)
     || is_empty (cfg_apiPublicKey cfg)
  then inl (Error required_message)
  else inr (mkClient (cfg_apiKeyId cfg) (cfg_apiSecret cfg) (cfg_apiPublicKey cfg)
              (match cfg_apiBaseUrl cfg with
               | Some u => u
               | None => production_host
               end)).

Section Methods.
Context `{Host}.

Definition credentials (this : Client) : Credentials :=
  mkCredentials (apiKeyId this) (apiSecret this) (apiPublicKey this).

(** The request [fetch] is called with. *)
Definition post (this : Client) (requestArray : list JSON) : HttpRequest :=
  mkHttpRequest (apiBaseUrl this ++ "/query")%string "POST"
    (Some (JSON_stringify requestArray))
    [("Rai-Signature", signRequest (credentials this) requestArray);
     ("Content-Type", "application/json")].

(** The [try] block ends with [return response.json()]: the promise leaves
    the block un-awaited, so what the block yields is that promise, and the
    method's own promise adopts it after the [try] statement is over. *)
Definition request (this : Client) (requestArray : list JSON) : Async JSON :=
  returned <-
    try_catch
      (fetched <- call_fetch (post this requestArray) ;;
       response <- await fetched ;;
       if negb (ok response) then
         console_error (LogStr (statusText response)) ;;
         jsonError <- await (json response) ;;
         console_error (LogJSON jsonError) ;;
         e <- error_of_body jsonError ;;
         throw e
       else ret (json response))
      (fun error =>
         console_error (LogErr error) ;;
         throw (Error "Failed to request")) ;;
  await returned.

Definition create_requestArray (item : JSON) (options : option Obj) : list JSON :=
  match options with
  | Some o => [JStr "insertOne"; item; JObj o]
  | None => [JStr "insertOne"; item]
  end.

Definition create (this : Client) (item : JSON) (options : option Obj) : Async JSON :=
  request this (create_requestArray item options).

Definition find_requestArray (query : JSON) (options : option Obj) : list JSON :=
  match options with
  | Some o => [JStr "find"; query; JObj o]
  | None => [JStr "find"; query]
  end.

Definition find (this : Client) (query : JSON) (options : option Obj) : Async JSON :=
  request this (find_requestArray query options).

Definition findOne (this : Client) (query : JSON) (options : option Obj) : Async JSON :=
  found <- find this query (Some (set_prop "limit" (JNum 1) (spread options))) ;;
  results <- items_of found ;;
  ret (first_or_null results).

Definition update_requestArray (query update : JSON) (options : option Obj) : list JSON :=
  match options with
  | Some o => [JStr "findOneAndUpdate"; query; update; JObj o]
  | None => [JStr "findOneAndUpdate"; query; update]
  end.

Definition update (this : Client) (query update : JSON) (options : option Obj) : Async JSON :=
  request this (update_requestArray query update options).

(** The literal [{ deleted: { status: true } }]. *)
Definition deleted_status_true : JSON :=
  JObj [("deleted", JObj [("status", JBool true)])].

Definition delete_requestArray (query : JSON) (options : option Obj) : list JSON :=
  match options with
  | Some o => [JStr "findOneAndUpdate"; query; deleted_status_true; JObj o]
  | None => [JStr "findOneAndUpdate"; query; deleted_status_true]
  end.

Definition delete (this : Client) (query : JSON) (options : option Obj) : Async JSON :=
  request this (delete_requestArray query options).

Definition aggregate_requestArray (pipeline : list JSON) (options : option Obj) : list JSON :=
  match options with
  | Some o => [JStr "aggregate"; JArr pipeline; JObj o]
  | None => [JStr "aggregate"; JArr pipeline]
  end.

Definition aggregate (this : Client) (pipeline : list JSON) (options : option Obj) : Async JSON :=
  request this (aggregate_requestArray pipeline options).

Definition bulkWrite_requestArray (operations : list JSON) (options : option Obj) : list JSON :=
  match options with
  | Some o => [JStr "bulkWrite"; JArr operations; JObj o]
  | None => [JStr "bulkWrite"; JArr operations]
  end.

Definition bulkWrite (this : Client) (operations : list JSON) (options : option Obj) : Async JSON :=
  request this (bulkWrite_requestArray operations options).

Definition updateMany_requestArray (query update : JSON) (options : option Obj) : list JSON :=
  match options with
  | Some o => [JStr "updateMany"; query; update; JObj o]
  | None => [JStr "updateMany"; query; update]
  end.

Definition updateMany (this : Client) (query update : JSON) (options : option Obj) : Async JSON :=
  request this (updateMany_requestArray query update options).

Definition deleteOne_requestArray (query : JSON) (options : option Obj) : list JSON :=
  match options with
  | Some o => [JStr "deleteOne"; query; JObj o]
  | None => [JStr "deleteOne"; query]
  end.

Definition deleteOne (this : Client) (query : JSON) (options : option Obj) : Async JSON :=
  request this (deleteOne_requestArray query options).

Definition deleteMany_requestArray (query : JSON) (options : option Obj) : list JSON :=
  match options with
  | Some o => [JStr "deleteMany"; query; JObj o]
  | None => [JStr "deleteMany"; query]
  end.

Definition deleteMany (this : Client) (query : JSON) (options : option Obj) : Async JSON :=
  request this (deleteMany_requestArray query options).

(** [updates.map(([query, update]) => ({ updateOne: { filter: query, update: update } }))] *)
Definition bulkOperations (updates : list (JSON * JSON)) : list JSON :=
  map (fun qu => JObj [("updateOne", JObj [("filter", fst qu); ("update", snd qu)])])
      updates.

Definition updateBatch (this : Client) (updates : list (JSON * JSON))
    (options : option Obj) : Async JSON :=
  bulkWrite this (bulkOperations updates) options.

End Methods.

End RaukInventoryClient.

(** ** [src/index.ts], first document: class [RaukInventory] *)

Module RaukInventory.

Record Client : Type := mkClient {
  apiKeyId : string;
  apiSecret : string;
  apiPublicKey : string;
  apiBaseUrl : string
}.

Definition constructor (cfg : Config) : JsError + Client :=
  if is_empty (cfg_apiKeyId cfg) || is_empty (cfg_apiSecret cfg)
     || is_empty (cfg_apiPublicKey cfg)
  then inl (Error required_message)
  else inr (mkClient (cfg_apiKeyId cfg) (cfg_apiSecret cfg) (cfg_apiPublicKey cfg)
              (match cfg_apiBaseUrl cfg with
               | Some u => u
               | None => production_host
               end)).

Section Methods.
Context `{Host}.

Definition credentials (this : Client) : Credentials :=
  mkCredentials (apiKeyId this) (apiSecret this) (apiPublicKey this).

Definition post (this : Client) (requestArray : list JSON) : HttpRequest :=
  mkHttpRequest (apiBaseUrl this ++ "/query")%string "POST"
    (Some (JSON_stringify requestArray))
    [("Rai-Signature", signRequest (credentials this) requestArray);
     ("Content-Type", "application/json")].

Definition request (this : Client) (requestArray : list JSON) : Async JSON :=
  returned <-
    try_catch
      (fetched <- call_fetch (post this requestArray) ;;
       response <- await fetched ;;
       if negb (ok response) then
         console_error (LogStr (statusText response)) ;;
         jsonError <- await (json response) ;;
         console_error (LogJSON jsonError) ;;
         e <- error_of_body jsonError ;;
         throw e
       else ret (json response))
      (fun error =>
         console_error (LogErr error) ;;
         throw (Error "Failed to request")) ;;
  await returned.

Definition create (this : Client) (item : JSON) (options : option Obj) : Async JSON :=
  request this
    (match options with
     | Some o => [JStr "insertOne"; item; JObj o]
     | None => [JStr "insertOne"; item]
     end).

Definition find (this : Client) (query : JSON) (options : option Obj) : Async JSON :=
  request this
    (match options with
     | Some o => [JStr "find"; query; JObj o]
     | None => [JStr "find"; query]
     end).

Definition findOne (this : Client) (query : JSON) (options : option Obj) : Async JSON :=
  found <- find this query (Some (set_prop "limit" (JNum 1) (spread options))) ;;
  results <- items_of found ;;
  ret (first_or_null results).

Definition findFlexible (this : Client) (query : JSON) (options : option Obj) : Async JSON :=
  request this
    (match options with
     | Some o => [JStr "find"; query; JObj o]
     | None => [JStr "find"; query]
     end).

Definition findOneFlexible (this : Client) (query : JSON) (options : option Obj)
    : Async JSON :=
  found <- findFlexible this query (Some (set_prop "limit" (JNum 1) (spread options))) ;;
  results <- items_of found ;;
  ret (first_or_null results).

Definition update (this : Client) (query update : JSON) (options : option Obj) : Async JSON :=
  request this
    (match options with
     | Some o => [JStr "findOneAndUpdate"; query; update; JObj o]
     | None => [JStr "findOneAndUpdate"; query; update]
     end).

Definition delete (this : Client) (query : JSON) (options : option Obj) : Async JSON :=
  request this
    (match options with
     | Some o =>
         [JStr "findOneAndUpdate"; query;
          JObj [("deleted", JObj [("status", JBool true)])]; JObj o]
     | None =>
         [JStr "findOneAndUpdate"; query;
          JObj [("deleted", JObj [("status", JBool true)])]]
     end).

Definition aggregate (this : Client) (pipeline : JSON) (options : option Obj) : Async JSON :=
  request this
    (match options with
     | Some o => [JStr "aggregate"; pipeline; JObj o]
     | None => [JStr "aggregate"; pipeline]
     end).

(** [operations: OperationBulkWriteOperations] is one operation or an array
    of them; either way it goes into the tuple as it is. *)
Definition bulkWrite_requestArray (operations : JSON) (options : option Obj) : list JSON :=
  match options with
  | Some o => [JStr "bulkWrite"; operations; JObj o]
  | None => [JStr "bulkWrite"; operations]
  end.

Definition bulkWrite (this : Client) (operations : JSON) (options : option Obj) : Async JSON :=
  request this (bulkWrite_requestArray operations options).

Definition updateMany (this : Client) (query update : JSON) (options : option Obj) : Async JSON :=
  request this
    (match options with
     | Some o => [JStr "updateMany"; query; update; JObj o]
     | None => [JStr "updateMany"; query; update]
     end).

Definition deleteOne (this : Client) (query : JSON) (options : option Obj) : Async JSON :=
  request this
    (match options with
     | Some o => [JStr "deleteOne"; query; JObj o]
     | None => [JStr "deleteOne"; query]
     end).

Definition deleteMany (this : Client) (query : JSON) (options : option Obj) : Async JSON :=
  request this
    (match options with
     | Some o => [JStr "deleteMany"; query; JObj o]
     | None => [JStr "deleteMany"; query]
     end).

(** [updates.map(([query, update]) => ({ updateOne: { filter: query, update: { update } } }))]:
    the shorthand [{ update }] is an object whose one property, [update],
    holds the update document. *)
Definition bulkOperations (updates : list (JSON * JSON)) : list JSON :=
  map (fun qu =>
         JObj [("updateOne",
                JObj [("filter", fst qu); ("update", JObj [("update", snd qu)])])])
      updates.

Definition updateBatch (this : Client) (updates : list (JSON * JSON))
    (options : option Obj) : Async JSON :=
  bulkWrite this (JArr (bulkOperations updates)) options.

End Methods.

End RaukInventory.

(** ** [src/index.ts], second document: the other revision of [RaukInventory] *)

Module RaukInventoryRev2.

Record Client : Type := mkClient {
  apiKeyId : string;
  apiSecret : string;
  apiPublicKey : string;
  apiBaseUrl : string
}.

Definition constructor (cfg : Config) : JsError + Client :=
  if is_empty (cfg_apiKeyId cfg) || is_empty (cfg_apiSecret cfg)
     || is_empty (cfg_apiPublicKey cfg)
  then inl (Error required_message)
  else inr (mkClient (cfg_apiKeyId cfg) (cfg_apiSecret cfg) (cfg_apiPublicKey cfg)
              (match cfg_apiBaseUrl cfg with
               | Some u => u
               | None => production_host
               end)).

(** [OperationAggregateDto] of this revision: [{ pipeline: stage[] }]. *)
Record AggregateDto : Type := mkAggregateDto { pipeline : list JSON }.

Section Methods.
Context `{Host}.

Definition credentials (this : Client) : Credentials :=
  mkCredentials (apiKeyId this) (apiSecret this) (apiPublicKey this).

(** The options passed to [fetch] have a method and headers, and no body. *)
Definition post (this : Client) (requestArray : list JSON) : HttpRequest :=
  mkHttpRequest (apiBaseUrl this ++ "/query")%string "POST"
    None
    [("Authorization",
      ("Bearer " ++ signRequest (credentials this) requestArray)%string);
     ("Content-Type", "application/json")].

Definition request (this : Client) (requestArray : list JSON) : Async JSON :=
  returned <-
    try_catch
      (fetched <- call_fetch (post this requestArray) ;;
       response <- await fetched ;;
       if negb (ok response) then
         console_error (LogStr (statusText response)) ;;
         throw (Error "Failed to request")
       else ret (json response))
      (fun error =>
         console_error (LogErr error) ;;
         throw (Error "Failed to request")) ;;
  await returned.

Definition create (this : Client) (item : JSON) (options : option Obj) : Async JSON :=
  request this
    (match options with
     | Some o => [JStr "insertOne"; item; JObj o]
     | None => [JStr "insertOne"; item]
     end).

Definition find (this : Client) (query : JSON) (options : option Obj) : Async JSON :=
  request this
    (match options with
     | Some o => [JStr "find"; query; JObj o]
     | None => [JStr "find"; query]
     end).

Definition findOne (this : Client) (query : JSON) (options : option Obj) : Async JSON :=
  found <- find this query (Some (set_prop "limit" (JNum 1) (spread options))) ;;
  results <- items_of found ;;
  ret (first_or_null results).

Definition update (this : Client) (query update : JSON) (options : option Obj) : Async JSON :=
  request this
    (match options with
     | Some o => [JStr "findOneAndUpdate"; query; update; JObj o]
     | None => [JStr "findOneAndUpdate"; query; update]
     end).

Definition delete (this : Client) (query : JSON) (options : option Obj) : Async JSON :=
  request this
    (match options with
     | Some o =>
         [JStr "findOneAndUpdate"; query;
          JObj [("deleted", JObj [("status", JBool true)])]; JObj o]
     | None =>
         [JStr "findOneAndUpdate"; query;
          JObj [("deleted", JObj [("status", JBool true)])]]
     end).

Definition aggregate (this : Client) (dto : AggregateDto) (options : option Obj) : Async JSON :=
  request this
    (match options with
     | Some o => [JStr "aggregate"; JArr (pipeline dto); JObj o]
     | None => [JStr "aggregate"; JArr (pipeline dto)]
     end).

Definition bulkWrite (this : Client) (operations : JSON) (options : option Obj) : Async JSON :=
  request this
    (match options with
     | Some o => [JStr "bulkWrite"; operations; JObj o]
     | None => [JStr "bulkWrite"; operations]
     end).

Definition updateMany (this : Client) (query update : JSON) (options : option Obj) : Async JSON :=
  request this
    (match options with
     | Some o => [JStr "updateMany"; query; update; JObj o]
     | None => [JStr "updateMany"; query; update]
     end).

Definition deleteOne (this : Client) (query : JSON) (options : option Obj) : Async JSON :=
  request this
    (match options with
     | Some o => [JStr "deleteOne"; query; JObj o]
     | None => [JStr "deleteOne"; query]
     end).

Definition deleteMany (this : Client) (query : JSON) (options : option Obj) : Async JSON :=
  request this
    (match options with
     | Some o => [JStr "deleteMany"; query; JObj o]
     | None => [JStr "deleteMany"; query]
     end).

End Methods.

End RaukInventoryRev2.

(** ** The public operations of [RaukInventoryClient], as data

    One constructor per public method, holding the arguments that come
    before [options]; [invoke] is the method call itself and [encoded] the
    [requestArray] the method hands to [request]. *)

Module Surface.
Import RaukInventoryClient.

Inductive Call : Type :=
| Create (item : JSON)
| Find (query : JSON)
| FindOne (query : JSON)
| Update (query update : JSON)
| Delete (query : JSON)
| Aggregate (pipeline : list JSON)
| BulkWrite (operations : list JSON)
| UpdateMany (query update : JSON)
| DeleteOne (query : JSON)
| DeleteMany (query : JSON)
| UpdateBatch (updates : list (JSON * JSON)).

Definition invoke `{Host} (this : Client) (call : Call) (options : option Obj)
    : Async JSON :=
  match call with
  | Create item => create this item options
  | Find query => find this query options
  | FindOne query => findOne this query options
  | Update query upd => update this query upd options
  | Delete query => delete this query options
  | Aggregate pipeline => aggregate this pipeline options
  | BulkWrite operations => bulkWrite this operations options
  | UpdateMany query upd => updateMany this query upd options
  | DeleteOne query => deleteOne this query options
  | DeleteMany query => deleteMany this query options
  | UpdateBatch updates => updateBatch this updates options
  end.

Definition encoded (call : Call) (options : option Obj) : list JSON :=
  match call with
  | Create item => create_requestArray item options
  | Find query => find_requestArray query options
  | FindOne query =>
      find_requestArray query (Some (set_prop "limit" (JNum 1) (spread options)))
  | Update query upd => update_requestArray query upd options
  | Delete query => delete_requestArray query options
  | Aggregate pipeline => aggregate_requestArray pipeline options
  | BulkWrite operations => bulkWrite_requestArray operations options
  | UpdateMany query upd => updateMany_requestArray query upd options
  | DeleteOne query => deleteOne_requestArray query options
  | DeleteMany query => deleteMany_requestArray query options
  | UpdateBatch updates => bulkWrite_requestArray (bulkOperations updates) options
  end.

(** The methods that build their own tuple; [findOne] goes through [find]
    with an options object of its own making. *)
Definition builds_own_tuple (call : Call) : bool :=
  match call with
  | FindOne _ => false
  | _ => true
  end.

(** A program that constructs a client and goes on to use it:
    [const client = new RaukInventoryClient(cfg); ... k(client)]. *)
Definition with_new_client {A : Type} (cfg : Config) (k : Client -> Async A) : Async A :=
  match constructor cfg with
  | inl e => throw e
  | inr client => k client
  end.

End Surface.

(** ** Reading a batch entry, and hosts with a fixed answer *)

(** [entry.updateOne[field]] for an entry of a [bulkWrite] operations array. *)
Definition entry_field (field : string) (entry : JSON) : option JSON :=
  match get_prop entry "updateOne" with
  | Some updateOne => get_prop updateOne field
  | None => None
  end.

(** Nesting depth of a value. *)
Fixpoint depth (v : JSON) : nat :=
  match v with
  | JArr l =>
      S ((fix deepest (l : list JSON) : nat :=
            match l with
            | [] => 0
            | x :: rest => Nat.max (depth x) (deepest rest)
            end) l)
  | JObj o =>
      S ((fix deepest (o : list (string * JSON)) : nat :=
            match o with
            | [] => 0
            | (_, x) :: rest => Nat.max (depth x) (deepest rest)
            end) o)
  | _ => 0
  end.

(** A host whose [fetch] settles every call the same way. *)
Definition answering (stringify : list JSON -> string)
    (sign : Credentials -> list JSON -> string) (answer : Settled Response) : Host := {|
  JSON_stringify := stringify;
  signRequest := sign;
  fetch := fun _ => answer
|}.

(** The body of a validation failure: [{ success: false, error: { errors,
    name: "ValidationException" } }]. *)
Definition validation_exception (errors : list JSON) : JSON :=
  JObj [("success", JBool false);
        ("error", JObj [("errors", JArr errors);
                        ("name", JStr "ValidationException")])].

(** ** Test doubles

    The hosts of the concrete scenarios: a serializer that prints the
    structure of a tuple, a signer that tags the key id, and a [fetch]
    that answers every request the same way (as
    [jest.spyOn(global, 'fetch').mockResolvedValue] does in the tests). *)

Module Mock.

Definition quote : string := double_quote.

Fixpoint show (v : JSON) : string :=
  match v with
  | JNull => "null"
  | JBool true => "true"
  | JBool false => "false"
  | JNum n => string_of_Z n
  | JStr s => quote ++ s ++ quote
  | JArr l =>
      "[" ++
      (fix elems (l : list JSON) : string :=
         match l with
         | [] => ""
         | x :: rest =>
             show x ++ (match rest with [] => "" | _ => "," ++ elems rest end)
         end) l
      ++ "]"
  | JObj o =>
      "{" ++
      (fix props (o : list (string * JSON)) : string :=
         match o with
         | [] => ""
         | (k, x) :: rest =>
             quote ++ k ++ quote ++ ":" ++ show x
             ++ (match rest with [] => "" | _ => "," ++ props rest end)
         end) o
      ++ "}"
  end%string.

Definition sign (creds : Credentials) (requestArray : list JSON) : string :=
  ("signed:" ++ cred_apiKeyId creds ++ ":" ++ show (JArr requestArray))%string.

Definition host (answer : Settled Response) : Host :=
  answering (fun requestArray => show (JArr requestArray)) sign answer.

Definition config : Config :=
  mkConfig "test-key" "test-secret" "test-public" (Some "https://inventory.rauk.local").

Definition client : RaukInventoryClient.Client :=
  RaukInventoryClient.mkClient "test-key" "test-secret" "test-public"
    "https://inventory.rauk.local".

Definition index_client : RaukInventory.Client :=
  RaukInventory.mkClient "test-key" "test-secret" "test-public"
    "https://inventory.rauk.local".

Definition rev2_client : RaukInventoryRev2.Client :=
  RaukInventoryRev2.mkClient "test-key" "test-secret" "test-public"
    "https://inventory.rauk.local".

Definition fresh : World := mkWorld [] [].

(** The validation failure of [tests/index.test.ts], with the first of its
    two entries. *)
Definition validation_errors : list JSON :=
  [JObj [("property", JStr "brandDetails");
         ("constraints", JArr [JStr "brandDetails should not be null or undefined"]);
         ("children", JArr [])]].

Definition validation_response : Settled Response :=
  Resolved (mkResponse false 400 "Bad Request"
              (Resolved (validation_exception validation_errors))).

(** [mockRejectedValue(new TypeError("fetch failed"))] *)
Definition fetch_failed : Settled Response := Rejected (TypeError "fetch failed").

(** A 200 answer whose body is not JSON: [response.json()] rejects. *)
Definition unparseable_ok_response : Settled Response :=
  Resolved (mkResponse true 200 "OK"
              (Rejected (mkJsError "SyntaxError" "Unexpected token < in JSON at position 0"))).

Definition items_response (items : list JSON) : Settled Response :=
  Resolved (mkResponse true 200 "OK" (Resolved (JArr items))).

Definition sku_query : JSON := JObj [("sku", JStr "ITEM-001")].

(** The batch of the test "should updateBatch via static method". *)
Definition batch_updates : list (JSON * JSON) :=
  [(JObj [("id", JStr "68e7f70f8d21cb8e86067aff")],
    JObj [("color.name", JStr "Traffic Red")])].

End Mock.

(** ** Command names and object views *)

(** The command names that stand first in the tuples of [rauk-client.ts]. *)
Definition command_names : list string :=
  ["insertOne"; "find"; "findOneAndUpdate"; "aggregate"; "bulkWrite";
   "updateMany"; "deleteOne"; "deleteMany"].

(** The properties of an object other than [k], in order. *)
Definition without_key (k : string) (o : Obj) : Obj :=
  filter (fun p => negb (String.eqb (fst p) k)) o.

(** Unfolds the combinators of a computation so that it can be run. *)
Ltac run_async :=
  unfold outcome, after, bind, try_catch, call_fetch, await, console_error,
    error_of_body, items_of, ret, throw;
  simpl.

(** * Properties *)

(** ** Objects *)

Lemma lookup_set_prop_same (k : string) (v : JSON) (o : Obj) :
  lookup k (set_prop k v o) = Some v.
Proof.
  induction o as [| [k' v'] rest IH]; simpl.
  - now rewrite String.eqb_refl.
  - destruct (String.eqb k' k) eqn:E; simpl; rewrite E; [reflexivity | exact IH].
Qed.

Lemma lookup_set_prop_other (k k0 : string) (v : JSON) (o : Obj) :
  k0 <> k -> lookup k0 (set_prop k v o) = lookup k0 o.
Proof.
  intros Hne. induction o as [| [k' v'] rest IH]; simpl.
  - destruct (String.eqb_spec k k0) as [-> | _]; [contradiction | reflexivity].
  - destruct (String.eqb_spec k' k) as [-> | Hk]; simpl.
    + destruct (String.eqb_spec k k0) as [-> | _]; [contradiction | reflexivity].
    + now rewrite IH.
Qed.

Lemma set_prop_length (k : string) (v : JSON) (o : Obj) :
  length (set_prop k v o) =
  match lookup k o with Some _ => length o | None => S (length o) end.
Proof.
  induction o as [| [k' v'] rest IH]; simpl; [reflexivity |].
  destruct (String.eqb k' k); simpl; [reflexivity |].
  rewrite IH. now destruct (lookup k rest).
Qed.

Lemma set_prop_keys (k : string) (v : JSON) (o : Obj) :
  map fst (set_prop k v o)
  = match lookup k o with
    | Some _ => map fst o
    | None => map fst o ++ [k]
    end.
Proof.
  induction o as [| [k' v'] rest IH]; simpl; [reflexivity |].
  destruct (String.eqb k' k); simpl; [reflexivity |].
  rewrite IH. now destruct (lookup k rest).
Qed.

Lemma lookup_none_not_key (k : string) (o : Obj) :
  lookup k o = None -> ~ In k (map fst o).
Proof.
  induction o as [| [k' v'] rest IH]; simpl; [tauto |].
  destruct (String.eqb_spec k' k) as [-> | Hne]; [discriminate |].
  intros Hnone [Heq | Hin]; [contradiction | now apply IH].
Qed.

(** An object stays an object: setting a property keeps the keys distinct. *)
Lemma set_prop_keeps_keys_distinct (k : string) (v : JSON) (o : Obj) :
  NoDup (map fst o) -> NoDup (map fst (set_prop k v o)).
Proof.
  intros Hnodup. rewrite set_prop_keys.
  destruct (lookup k o) eqn:Hlookup; [exact Hnodup |].
  apply NoDup_app; [exact Hnodup | repeat constructor; simpl; tauto |].
  intros x Hin [<- | []]. revert Hin. now apply lookup_none_not_key.
Qed.

(** ** The [request] method of the three classes *)

Section RequestFacts.
Context `{Host}.

(** [RaukInventoryClient.request] calls [fetch] once, with the serialized
    tuple as the body and the signature of the same tuple in a header,
    whatever the answer is. *)
Lemma client_request_posts_once (this : RaukInventoryClient.Client)
    (requestArray : list JSON) (w : World) :
  calls (after (RaukInventoryClient.request this requestArray) w)
  = calls w ++ [RaukInventoryClient.post this requestArray].
Proof.
  unfold RaukInventoryClient.request. run_async.
  destruct (fetch (RaukInventoryClient.post this requestArray)) as [response | e];
    simpl; [| reflexivity].
  destruct (ok response); simpl.
  - destruct (json response); reflexivity.
  - destruct (json response) as [[] | e]; reflexivity.
Qed.

Lemma index_request_posts_once (this : RaukInventory.Client)
    (requestArray : list JSON) (w : World) :
  calls (after (RaukInventory.request this requestArray) w)
  = calls w ++ [RaukInventory.post this requestArray].
Proof.
  unfold RaukInventory.request. run_async.
  destruct (fetch (RaukInventory.post this requestArray)) as [response | e];
    simpl; [| reflexivity].
  destruct (ok response); simpl.
  - destruct (json response); reflexivity.
  - destruct (json response) as [[] | e]; reflexivity.
Qed.

Lemma rev2_request_posts_once (this : RaukInventoryRev2.Client)
    (requestArray : list JSON) (w : World) :
  calls (after (RaukInventoryRev2.request this requestArray) w)
  = calls w ++ [RaukInventoryRev2.post this requestArray].
Proof.
  unfold RaukInventoryRev2.request. run_async.
  destruct (fetch (RaukInventoryRev2.post this requestArray)) as [response | e];
    simpl; [| reflexivity].
  destruct (ok response); simpl; [| reflexivity].
  destruct (json response); reflexivity.
Qed.

(** A response that is not [ok]: whatever its status and its body (parsed
    or not), the caller gets the generic error. *)
Lemma client_request_not_ok (this : RaukInventoryClient.Client)
    (requestArray : list JSON) (w : World) (response : Response) :
  fetch (RaukInventoryClient.post this requestArray) = Resolved response ->
  ok response = false ->
  outcome (RaukInventoryClient.request this requestArray) w
  = Rejected (Error "Failed to request").
Proof.
  intros Hfetch Hok. unfold RaukInventoryClient.request. run_async.
  rewrite Hfetch. simpl. rewrite Hok. simpl.
  destruct (json response) as [[] | e]; reflexivity.
Qed.

Lemma index_request_not_ok (this : RaukInventory.Client)
    (requestArray : list JSON) (w : World) (response : Response) :
  fetch (RaukInventory.post this requestArray) = Resolved response ->
  ok response = false ->
  outcome (RaukInventory.request this requestArray) w
  = Rejected (Error "Failed to request").
Proof.
  intros Hfetch Hok. unfold RaukInventory.request. run_async.
  rewrite Hfetch. simpl. rewrite Hok. simpl.
  destruct (json response) as [[] | e]; reflexivity.
Qed.

(** [fetch] itself rejects: the thrown error goes to the console, the
    caller gets the generic error. *)
Lemma client_request_fetch_rejected (this : RaukInventoryClient.Client)
    (requestArray : list JSON) (w : World) (e : JsError) :
  fetch (RaukInventoryClient.post this requestArray) = Rejected e ->
  RaukInventoryClient.request this requestArray w
  = (Rejected (Error "Failed to request"),
     mkWorld (calls w ++ [RaukInventoryClient.post this requestArray])
             (console w ++ [LogErr e])).
Proof.
  intros Hfetch. unfold RaukInventoryClient.request. run_async.
  rewrite Hfetch. reflexivity.
Qed.

Lemma index_request_fetch_rejected (this : RaukInventory.Client)
    (requestArray : list JSON) (w : World) (e : JsError) :
  fetch (RaukInventory.post this requestArray) = Rejected e ->
  RaukInventory.request this requestArray w
  = (Rejected (Error "Failed to request"),
     mkWorld (calls w ++ [RaukInventory.post this requestArray])
             (console w ++ [LogErr e])).
Proof.
  intros Hfetch. unfold RaukInventory.request. run_async.
  rewrite Hfetch. reflexivity.
Qed.

(** An [ok] response: the method settles as [response.json()] does, and the
    [catch] block never runs (nothing is written to the console). *)
Lemma client_request_ok (this : RaukInventoryClient.Client)
    (requestArray : list JSON) (w : World) (response : Response) :
  fetch (RaukInventoryClient.post this requestArray) = Resolved response ->
  ok response = true ->
  RaukInventoryClient.request this requestArray w
  = (json response,
     mkWorld (calls w ++ [RaukInventoryClient.post this requestArray]) (console w)).
Proof.
  intros Hfetch Hok. unfold RaukInventoryClient.request. run_async.
  rewrite Hfetch. simpl. rewrite Hok. simpl.
  destruct (json response); reflexivity.
Qed.

Lemma index_request_ok (this : RaukInventory.Client)
    (requestArray : list JSON) (w : World) (response : Response) :
  fetch (RaukInventory.post this requestArray) = Resolved response ->
  ok response = true ->
  RaukInventory.request this requestArray w
  = (json response,
     mkWorld (calls w ++ [RaukInventory.post this requestArray]) (console w)).
Proof.
  intros Hfetch Hok. unfold RaukInventory.request. run_async.
  rewrite Hfetch. simpl. rewrite Hok. simpl.
  destruct (json response); reflexivity.
Qed.

End RequestFacts.

(** ** Command encoding *)

Section Encoding.
Context `{Host}.
Import RaukInventoryClient Surface.

(** What follows a [find] in [findOne] neither calls [fetch] nor writes to
    the console. *)
Lemma first_item_keeps_world (m : Async JSON) (w : World) :
  after (found <- m ;; results <- items_of found ;; ret (first_or_null results)) w
  = after m w.
Proof.
  run_async. destruct (m w) as [[[] | e] w']; reflexivity.
Qed.

(** Every public method issues exactly one request, and it carries the
    method's [requestArray]. *)
Lemma invoke_posts_encoded (this : Client) (call : Call) (options : option Obj)
    (w : World) :
  calls (after (invoke this call options) w)
  = calls w ++ [post this (encoded call options)].
Proof.
  destruct call; simpl;
    try (unfold create, find, update, delete, aggregate, bulkWrite, updateMany,
           deleteOne, deleteMany, updateBatch, bulkWrite;
         apply client_request_posts_once).
  unfold findOne. rewrite first_item_keeps_world.
  unfold find. apply client_request_posts_once.
Qed.

(** The options of a method that builds its own tuple: appended when
    supplied, absent otherwise. *)
Lemma encoded_options_appended (call : Call) (o : Obj) :
  builds_own_tuple call = true ->
  encoded call (Some o) = encoded call None ++ [JObj o].
Proof.
  destruct call; simpl; intros Hown; try reflexivity. discriminate.
Qed.

Lemma client_bulkOperations_length (updates : list (JSON * JSON)) :
  length (RaukInventoryClient.bulkOperations updates) = length updates.
Proof.
  unfold RaukInventoryClient.bulkOperations. apply length_map.
Qed.

(** [RaukInventoryClient.updateBatch] does what the batch interface
    promises: one [bulkWrite] request, one [updateOne] entry per pair, in
    order, with the pair's query as filter and its update document as
    update. *)
Lemma client_updateBatch_one_bulkWrite (this : Client)
    (updates : list (JSON * JSON)) (options : option Obj) (w : World) :
  calls (after (updateBatch this updates options) w)
  = calls w
    ++ [post this
          (bulkWrite_requestArray
             (map (fun qu =>
                     JObj [("updateOne",
                            JObj [("filter", fst qu); ("update", snd qu)])])
                  updates)
             options)].
Proof.
  unfold updateBatch, bulkWrite. apply client_request_posts_once.
Qed.

End Encoding.

(** ** The delete family *)

Section DeleteFamily.
Context `{Host}.
Import RaukInventoryClient.

(** C9. For every query, the soft delete [delete] sends the tuple
    ["findOneAndUpdate", query, {deleted: {status: true}}, options?], and the
    hard variants [deleteOne] and [deleteMany] send ["deleteOne", query,
    options?] and ["deleteMany", query, options?], with no synthetic update
    document; in each, the options are present exactly when supplied. Each
    call issues that one request and no other. *)
Theorem delete_family_tuples (this : Client) (query : JSON) (o : Obj) (w : World) :
  calls (after (delete this query (Some o)) w)
  = calls w
    ++ [post this [JStr "findOneAndUpdate"; query;
                   JObj [("deleted", JObj [("status", JBool true)])]; JObj o]]
  /\ calls (after (delete this query None) w)
     = calls w
       ++ [post this [JStr "findOneAndUpdate"; query;
                      JObj [("deleted", JObj [("status", JBool true)])]]]
  /\ calls (after (deleteOne this query (Some o)) w)
     = calls w ++ [post this [JStr "deleteOne"; query; JObj o]]
  /\ calls (after (deleteOne this query None) w)
     = calls w ++ [post this [JStr "deleteOne"; query]]
  /\ calls (after (deleteMany this query (Some o)) w)
     = calls w ++ [post this [JStr "deleteMany"; query; JObj o]]
  /\ calls (after (deleteMany this query None) w)
     = calls w ++ [post this [JStr "deleteMany"; query]].
Proof.
  unfold delete, deleteOne, deleteMany.
  repeat split; apply client_request_posts_once.
Qed.

End DeleteFamily.

(** ** Options in the tuple *)

Section OptionsPlacement.
Context `{Host}.
Import RaukInventoryClient Surface.

(** C8, as amended. Every public method issues one request that carries
    its tuple. For the methods that build their own tuple (create, find,
    update, updateMany, delete, deleteOne, deleteMany, aggregate, bulkWrite,
    and updateBatch through bulkWrite) the tuple with options is the tuple
    without them followed by the options object, so the options are last
    when supplied and the tuple is one element shorter when they are
    omitted. [findOne] always sends an options object of its own, the
    caller's options with [limit] set to 1: its tuple has three elements
    whether or not the caller supplied options. *)
Theorem options_last_or_absent (this : Client) (call : Call) (o : Obj) (w : World) :
  calls (after (invoke this call (Some o)) w)
  = calls w ++ [post this (encoded call (Some o))]
  /\ calls (after (invoke this call None) w)
     = calls w ++ [post this (encoded call None)]
  /\ match call with
     | FindOne query =>
         encoded call (Some o)
         = [JStr "find"; query; JObj (set_prop "limit" (JNum 1) o)]
         /\ encoded call None = [JStr "find"; query; JObj [("limit", JNum 1)]]
     | _ =>
         encoded call (Some o) = encoded call None ++ [JObj o]
         /\ last (encoded call (Some o)) JNull = JObj o
         /\ length (encoded call (Some o)) = S (length (encoded call None))
     end.
Proof.
  split; [apply invoke_posts_encoded |].
  split; [apply invoke_posts_encoded |].
  destruct call; simpl; repeat split.
Qed.

End OptionsPlacement.

(** C8, as stated, fails: [findOne] without options and [findOne] with the
    empty options object both send a tuple of three elements. *)
Lemma findOne_tuple_is_not_shorter_without_options :
  ~ (forall (call : Surface.Call) (o : Obj),
       last (Surface.encoded call (Some o)) JNull = JObj o
       /\ length (Surface.encoded call None) < length (Surface.encoded call (Some o))).
Proof.
  intros Hclaim.
  destruct (Hclaim (Surface.FindOne Mock.sku_query) []) as [_ Hshorter].
  simpl in Hshorter. lia.
Qed.

(** ** [findOne] and [findOneFlexible] *)

Section FindOne.
Context `{Host}.

Lemma outcome_bind_rejected {A B : Type} (m : Async A) (k : A -> Async B)
    (w : World) (e : JsError) :
  outcome m w = Rejected e -> outcome (bind m k) w = Rejected e.
Proof.
  unfold outcome, bind. destruct (m w) as [[a | e'] w']; simpl; intros Hm.
  - discriminate.
  - now injection Hm as ->.
Qed.

(** What [findOne] makes of the settlement of its [find]. *)
Lemma first_item_outcome (m : Async JSON) (w : World) :
  match outcome m w with
  | Resolved (JArr items) =>
      outcome (found <- m ;; results <- items_of found ;; ret (first_or_null results)) w
      = Resolved (match items with first :: _ => first | [] => JNull end)
  | Resolved _ => True
  | Rejected e =>
      outcome (found <- m ;; results <- items_of found ;; ret (first_or_null results)) w
      = Rejected e
  end.
Proof.
  run_async. destruct (m w) as [[[] | e] w']; simpl; try exact I; reflexivity.
Qed.

(** C3. [findOne] (and [findOneFlexible] of [index.ts]) calls [find]
    ([findFlexible]) with the caller's options in which [limit] is 1,
    whatever limit the caller supplied, and issues that one request; when
    the find resolves to a sequence it resolves to the first element, or to
    [null] when the sequence is empty, and a rejection of the find is passed
    on unchanged. *)
Theorem findOne_limit_one_first_or_null
    (this : RaukInventoryClient.Client) (index : RaukInventory.Client)
    (query : JSON) (options : option Obj) (w : World) :
  lookup "limit" (set_prop "limit" (JNum 1) (spread options)) = Some (JNum 1)
  /\ calls (after (RaukInventoryClient.findOne this query options) w)
     = calls w
       ++ [RaukInventoryClient.post this
             [JStr "find"; query; JObj (set_prop "limit" (JNum 1) (spread options))]]
  /\ match outcome (RaukInventoryClient.find this query
                      (Some (set_prop "limit" (JNum 1) (spread options)))) w with
     | Resolved (JArr items) =>
         outcome (RaukInventoryClient.findOne this query options) w
         = Resolved (match items with first :: _ => first | [] => JNull end)
     | Resolved _ => True
     | Rejected e =>
         outcome (RaukInventoryClient.findOne this query options) w = Rejected e
     end
  /\ calls (after (RaukInventory.findOneFlexible index query options) w)
     = calls w
       ++ [RaukInventory.post index
             [JStr "find"; query; JObj (set_prop "limit" (JNum 1) (spread options))]]
  /\ match outcome (RaukInventory.findFlexible index query
                      (Some (set_prop "limit" (JNum 1) (spread options)))) w with
     | Resolved (JArr items) =>
         outcome (RaukInventory.findOneFlexible index query options) w
         = Resolved (match items with first :: _ => first | [] => JNull end)
     | Resolved _ => True
     | Rejected e =>
         outcome (RaukInventory.findOneFlexible index query options) w = Rejected e
     end.
Proof.
  split; [apply lookup_set_prop_same |].
  split.
  { unfold RaukInventoryClient.findOne. rewrite first_item_keeps_world.
    unfold RaukInventoryClient.find. apply client_request_posts_once. }
  split; [apply first_item_outcome |].
  split.
  { unfold RaukInventory.findOneFlexible. rewrite first_item_keeps_world.
    unfold RaukInventory.findFlexible. apply index_request_posts_once. }
  apply first_item_outcome.
Qed.

End FindOne.

(** ** [updateBatch] *)

Lemma wrapped_update_differs (u : JSON) : JObj [("update", u)] <> u.
Proof.
  intros Heq. apply (f_equal depth) in Heq. simpl in Heq.
  rewrite Nat.max_0_r in Heq. lia.
Qed.

(** The entries [RaukInventoryClient.updateBatch] builds: the filter is the
    pair's query and the update is the pair's update document. *)
Lemma client_batch_entries (updates : list (JSON * JSON)) :
  map (entry_field "filter") (RaukInventoryClient.bulkOperations updates)
  = map (fun qu => Some (fst qu)) updates
  /\ map (entry_field "update") (RaukInventoryClient.bulkOperations updates)
     = map (fun qu => Some (snd qu)) updates.
Proof.
  unfold RaukInventoryClient.bulkOperations.
  split; rewrite map_map; apply map_ext; intros [q u]; reflexivity.
Qed.

Section UpdateBatch.
Context `{Host}.

(** C2, on [RaukInventory.updateBatch] of [index.ts]: it issues one
    [bulkWrite] request with one [updateOne] entry per pair, in order, whose
    filter is the pair's query; the entry's update, however, is an object
    that holds the update document under the key [update], which is never
    the update document itself. *)
Theorem index_updateBatch_wraps_update
    (this : RaukInventory.Client) (updates : list (JSON * JSON))
    (options : option Obj) (w : World) :
  calls (after (RaukInventory.updateBatch this updates options) w)
  = calls w
    ++ [RaukInventory.post this
          (RaukInventory.bulkWrite_requestArray
             (JArr (RaukInventory.bulkOperations updates)) options)]
  /\ length (RaukInventory.bulkOperations updates) = length updates
  /\ map (entry_field "filter") (RaukInventory.bulkOperations updates)
     = map (fun qu => Some (fst qu)) updates
  /\ map (entry_field "update") (RaukInventory.bulkOperations updates)
     = map (fun qu => Some (JObj [("update", snd qu)])) updates
  /\ Forall (fun qu => JObj [("update", snd qu)] <> snd qu) updates.
Proof.
  split.
  { unfold RaukInventory.updateBatch, RaukInventory.bulkWrite.
    apply index_request_posts_once. }
  unfold RaukInventory.bulkOperations.
  split; [apply length_map |].
  split; [rewrite map_map; apply map_ext; intros [q u]; reflexivity |].
  split; [rewrite map_map; apply map_ext; intros [q u]; reflexivity |].
  apply Forall_forall. intros [q u] _. apply wrapped_update_differs.
Qed.

End UpdateBatch.

(** The batch of the test suite, through [index.ts]: the update of the
    only entry is not the update document of the pair. *)
Example index_batch_entry_update :
  map (entry_field "update") (RaukInventory.bulkOperations Mock.batch_updates)
  = [Some (JObj [("update", JObj [("color.name", JStr "Traffic Red")])])].
Proof. reflexivity. Qed.

(** ** The request on the wire *)

Section Wire.
Context `{Host}.

(** C4, on the second revision of [index.ts]: every request goes to
    [{apiBaseUrl}/query] with method POST and the signature of the tuple in
    a header, and is the only one the call issues, but it has no body: the
    command tuple is never sent. *)
Theorem rev2_request_has_no_body
    (this : RaukInventoryRev2.Client) (requestArray : list JSON) (w : World) :
  calls (after (RaukInventoryRev2.request this requestArray) w)
  = calls w
    ++ [mkHttpRequest (RaukInventoryRev2.apiBaseUrl this ++ "/query")%string "POST"
          None
          [("Authorization",
            ("Bearer "
             ++ signRequest (RaukInventoryRev2.credentials this) requestArray)%string);
           ("Content-Type", "application/json")]].
Proof.
  apply rev2_request_posts_once.
Qed.

(** [RaukInventoryClient] does send the tuple: each public method issues
    exactly one POST to [{apiBaseUrl}/query], whose body is the
    serialization of the tuple the signature in the [Rai-Signature] header
    was computed over. *)
Lemma client_call_wire_format
    (this : RaukInventoryClient.Client) (call : Surface.Call)
    (options : option Obj) (w : World) :
  calls (after (Surface.invoke this call options) w)
  = calls w
    ++ [mkHttpRequest (RaukInventoryClient.apiBaseUrl this ++ "/query")%string "POST"
          (Some (JSON_stringify (Surface.encoded call options)))
          [("Rai-Signature",
            signRequest (RaukInventoryClient.credentials this)
              (Surface.encoded call options));
           ("Content-Type", "application/json")]].
Proof.
  apply invoke_posts_encoded.
Qed.

End Wire.

(** ** Construction *)

(** C6. When any of [apiKeyId], [apiSecret], [apiPublicKey] is empty the
    constructor (of [RaukInventoryClient] and of [RaukInventory]) throws the
    configuration error, an [Error] whose message says the three are
    required, and a program that constructs a client and then uses it stops
    there with the world untouched: no call to [fetch] is made. When the
    three are non-empty the constructor succeeds, and [apiBaseUrl] is the
    given one, or [https://inventory.rauk.app] when omitted. *)
Theorem eager_credential_validation (cfg : Config) :
  (cfg_apiKeyId cfg = "" \/ cfg_apiSecret cfg = "" \/ cfg_apiPublicKey cfg = "" ->
   RaukInventoryClient.constructor cfg
   = inl (Error "apiKeyId, apiSecret and apiPublicKey are required")
   /\ RaukInventory.constructor cfg
      = inl (Error "apiKeyId, apiSecret and apiPublicKey are required")
   /\ forall (A : Type) (k : RaukInventoryClient.Client -> Async A) (w : World),
        Surface.with_new_client cfg k w
        = (Rejected (Error "apiKeyId, apiSecret and apiPublicKey are required"), w))
  /\ (cfg_apiKeyId cfg <> "" -> cfg_apiSecret cfg <> "" -> cfg_apiPublicKey cfg <> "" ->
      RaukInventoryClient.constructor cfg
      = inr (RaukInventoryClient.mkClient
               (cfg_apiKeyId cfg) (cfg_apiSecret cfg) (cfg_apiPublicKey cfg)
               (match cfg_apiBaseUrl cfg with
                | Some u => u
                | None => "https://inventory.rauk.app"
                end))
      /\ RaukInventory.constructor cfg
         = inr (RaukInventory.mkClient
                  (cfg_apiKeyId cfg) (cfg_apiSecret cfg) (cfg_apiPublicKey cfg)
                  (match cfg_apiBaseUrl cfg with
                   | Some u => u
                   | None => "https://inventory.rauk.app"
                   end))).
Proof.
  destruct cfg as [k s p u]; simpl. split.
  - intros Hempty.
    assert (Hguard : is_empty k || is_empty s || is_empty p = true).
    { destruct Hempty as [-> | [-> | ->]]; simpl;
        rewrite ?orb_true_r; reflexivity. }
    unfold Surface.with_new_client, RaukInventoryClient.constructor,
      RaukInventory.constructor. simpl. rewrite Hguard.
    repeat split.
  - intros Hk Hs Hp.
    assert (Hguard : is_empty k || is_empty s || is_empty p = false).
    { destruct k; [contradiction |]. destruct s; [contradiction |].
      destruct p; [contradiction |]. reflexivity. }
    unfold RaukInventoryClient.constructor, RaukInventory.constructor. simpl.
    rewrite Hguard. split; reflexivity.
Qed.

(** C6 at two configurations: an empty [apiSecret], and complete
    credentials with [apiBaseUrl] omitted. *)
Lemma eager_credential_validation_witness :
  (forall (A : Type) (k : RaukInventoryClient.Client -> Async A),
     Surface.with_new_client (mkConfig "test-key" "" "test-public" None) k Mock.fresh
     = (Rejected (Error "apiKeyId, apiSecret and apiPublicKey are required"),
        Mock.fresh))
  /\ RaukInventoryClient.constructor (mkConfig "test-key" "test-secret" "test-public" None)
     = inr (RaukInventoryClient.mkClient "test-key" "test-secret" "test-public"
              "https://inventory.rauk.app").
Proof.
  split.
  - intros A k.
    apply (proj1 (eager_credential_validation
                    (mkConfig "test-key" "" "test-public" None))).
    right; left; reflexivity.
  - apply (proj2 (eager_credential_validation
                    (mkConfig "test-key" "test-secret" "test-public" None)));
      discriminate.
Defined.

(** ** Constructing [RaukInventory] twice *)

(** C7, on the code: the class [RaukInventory] of [index.ts], in either
    document, has no static instance and no static entry point, and its
    constructor has no guard. The constructor never throws the "already
    initialized" error: what it does depends on the configuration alone, so
    with the configuration of the tests every construction succeeds, the
    second as the first. *)
Theorem index_constructor_has_no_guard (cfg : Config) :
  RaukInventory.constructor cfg
  <> inl (Error "RaukInventory is already initialized")
  /\ RaukInventoryRev2.constructor cfg
     <> inl (Error "RaukInventory is already initialized")
  /\ RaukInventory.constructor Mock.config = inr Mock.index_client
  /\ RaukInventoryRev2.constructor Mock.config = inr Mock.rev2_client
  /\ match RaukInventory.constructor cfg with
     | inl _ => True
     | inr first => RaukInventory.constructor cfg = inr first
     end.
Proof.
  unfold RaukInventory.constructor, RaukInventoryRev2.constructor.
  repeat split.
  - destruct (is_empty (cfg_apiKeyId cfg) || is_empty (cfg_apiSecret cfg)
              || is_empty (cfg_apiPublicKey cfg)); discriminate.
  - destruct (is_empty (cfg_apiKeyId cfg) || is_empty (cfg_apiSecret cfg)
              || is_empty (cfg_apiPublicKey cfg)); discriminate.
  - destruct (is_empty (cfg_apiKeyId cfg) || is_empty (cfg_apiSecret cfg)
              || is_empty (cfg_apiPublicKey cfg)); [exact I | reflexivity].
Qed.

(** ** Failures of a request, as the caller sees them *)

Section Failures.
Variable stringify : list JSON -> string.
Variable sign : Credentials -> list JSON -> string.

(** C1, on the code: when the server answers 400 with a
    [ValidationException] body, every public method of
    [RaukInventoryClient] and every request of [RaukInventory] rejects with
    the generic [Error] whose message is "Failed to request", whatever the
    [errors] array holds; the body is only written to the console. *)
Theorem validation_failure_rejects_generic
    (errors : list JSON) (text : string)
    (this : RaukInventoryClient.Client) (call : Surface.Call) (options : option Obj)
    (index : RaukInventory.Client) (requestArray : list JSON) (w : World) :
  outcome
    (@Surface.invoke
       (answering stringify sign
          (Resolved (mkResponse false 400 text (Resolved (validation_exception errors)))))
       this call options) w
  = Rejected (Error "Failed to request")
  /\ outcome
       (@RaukInventory.request
          (answering stringify sign
             (Resolved (mkResponse false 400 text
                          (Resolved (validation_exception errors)))))
          index requestArray) w
     = Rejected (Error "Failed to request").
Proof.
  split.
  - destruct call; simpl;
      try (unfold RaukInventoryClient.create, RaukInventoryClient.find,
             RaukInventoryClient.update, RaukInventoryClient.delete,
             RaukInventoryClient.aggregate, RaukInventoryClient.updateBatch,
             RaukInventoryClient.bulkWrite, RaukInventoryClient.updateMany,
             RaukInventoryClient.deleteOne, RaukInventoryClient.deleteMany;
           eapply client_request_not_ok; reflexivity).
    unfold RaukInventoryClient.findOne. apply outcome_bind_rejected.
    unfold RaukInventoryClient.find. eapply client_request_not_ok; reflexivity.
  - eapply index_request_not_ok; reflexivity.
Qed.

(** C5, on the code: when [fetch] itself throws, the request rejects with
    the generic [Error] whose message is "Failed to request", the same value
    whatever was thrown; the thrown error is only written to the console. *)
Theorem transport_throw_rejects_generic
    (thrown : JsError)
    (this : RaukInventoryClient.Client) (index : RaukInventory.Client)
    (requestArray : list JSON) (w : World) :
  @RaukInventoryClient.request (answering stringify sign (Rejected thrown))
    this requestArray w
  = (Rejected (Error "Failed to request"),
     mkWorld
       (calls w
        ++ [@RaukInventoryClient.post (answering stringify sign (Rejected thrown))
              this requestArray])
       (console w ++ [LogErr thrown]))
  /\ @RaukInventory.request (answering stringify sign (Rejected thrown))
       index requestArray w
     = (Rejected (Error "Failed to request"),
        mkWorld
          (calls w
           ++ [@RaukInventory.post (answering stringify sign (Rejected thrown))
                 index requestArray])
          (console w ++ [LogErr thrown])).
Proof.
  split.
  - now apply client_request_fetch_rejected.
  - now apply index_request_fetch_rejected.
Qed.

(** C10, on the code: when the response is [ok] and its body does not
    parse, the promise of [response.json()] has left the [try] block
    un-awaited: the request rejects with the parser's own error, the [catch]
    block does not run and nothing is written to the console. *)
Theorem ok_body_parse_failure_escapes_catch
    (parse_error : JsError) (code : Z) (text : string)
    (this : RaukInventoryClient.Client) (index : RaukInventory.Client)
    (requestArray : list JSON) (w : World) :
  outcome
    (@RaukInventoryClient.request
       (answering stringify sign
          (Resolved (mkResponse true code text (Rejected parse_error))))
       this requestArray) w
  = Rejected parse_error
  /\ console
       (after
          (@RaukInventoryClient.request
             (answering stringify sign
                (Resolved (mkResponse true code text (Rejected parse_error))))
             this requestArray) w)
     = console w
  /\ outcome
       (@RaukInventory.request
          (answering stringify sign
             (Resolved (mkResponse true code text (Rejected parse_error))))
          index requestArray) w
     = Rejected parse_error.
Proof.
  unfold outcome, after.
  erewrite client_request_ok by reflexivity.
  erewrite index_request_ok by reflexivity.
  repeat split.
Qed.

(** The other failures do end in the generic error: a response that is not
    [ok], with a body that parses or not, and a throw of [fetch]. *)
Lemma caught_failures_reject_generic
    (code : Z) (text : string) (parsed : Settled JSON) (thrown : JsError)
    (this : RaukInventoryClient.Client) (requestArray : list JSON) (w : World) :
  outcome
    (@RaukInventoryClient.request
       (answering stringify sign (Resolved (mkResponse false code text parsed)))
       this requestArray) w
  = Rejected (Error "Failed to request")
  /\ outcome
       (@RaukInventoryClient.request (answering stringify sign (Rejected thrown))
          this requestArray) w
     = Rejected (Error "Failed to request").
Proof.
  split.
  - eapply client_request_not_ok; reflexivity.
  - unfold outcome. erewrite client_request_fetch_rejected by reflexivity.
    reflexivity.
Qed.

End Failures.

(** The three scenarios with the test doubles. *)
Example validation_scenario :
  outcome (@RaukInventoryClient.find (Mock.host Mock.validation_response)
             Mock.client Mock.sku_query None) Mock.fresh
  = Rejected (mkJsError "Error" "Failed to request").
Proof. reflexivity. Qed.

Example fetch_failed_scenario :
  outcome (@RaukInventoryClient.find (Mock.host Mock.fetch_failed)
             Mock.client Mock.sku_query None) Mock.fresh
  = Rejected (mkJsError "Error" "Failed to request").
Proof. reflexivity. Qed.

Example unparseable_ok_scenario :
  outcome (@RaukInventoryClient.find (Mock.host Mock.unparseable_ok_response)
             Mock.client Mock.sku_query None) Mock.fresh
  = Rejected (mkJsError "SyntaxError" "Unexpected token < in JSON at position 0")
  /\ mkJsError "SyntaxError" "Unexpected token < in JSON at position 0"
     <> Error "Failed to request".
Proof. split; [reflexivity | discriminate]. Qed.

Example findOne_scenario :
  outcome (@RaukInventoryClient.findOne (Mock.host (Mock.items_response []))
             Mock.client Mock.sku_query (Some [("limit", JNum 20)])) Mock.fresh
  = Resolved JNull
  /\ outcome (@RaukInventoryClient.findOne
                (Mock.host (Mock.items_response [JStr "first"; JStr "second"]))
                Mock.client Mock.sku_query None) Mock.fresh
     = Resolved (JStr "first").
Proof. split; reflexivity. Qed.

(** * Further properties of the code *)

(** ** Objects, continued *)

Lemma set_prop_overwrites (k : string) (v v' : JSON) (o : Obj) :
  set_prop k v (set_prop k v' o) = set_prop k v o.
Proof.
  induction o as [| [k' x] rest IH]; simpl.
  - now rewrite String.eqb_refl.
  - destruct (String.eqb k' k) eqn:E; simpl; rewrite E; [reflexivity |].
    now rewrite IH.
Qed.

Lemma without_key_set_prop (k : string) (v : JSON) (o : Obj) :
  without_key k (set_prop k v o) = without_key k o.
Proof.
  unfold without_key.
  induction o as [| [k' x] rest IH]; simpl.
  - now rewrite String.eqb_refl.
  - destruct (String.eqb k' k) eqn:E; simpl; rewrite E; simpl; [reflexivity |].
    now rewrite IH.
Qed.

(** ** What a request settles to *)

Section Outcomes.
Context `{Host}.

(** X2. The caller-visible outcome of [request], in [RaukInventoryClient]
    and in the first [RaukInventory]: the parsed body (or the parser's
    rejection) when the response is [ok], and the generic error with
    message "Failed to request" in every other case: a response that is not
    [ok], whatever its body, and a [fetch] that rejects. *)
Theorem request_outcome_characterised
    (this : RaukInventoryClient.Client) (index : RaukInventory.Client)
    (requestArray : list JSON) (w : World) :
  outcome (RaukInventoryClient.request this requestArray) w
  = match fetch (RaukInventoryClient.post this requestArray) with
    | Resolved response =>
        if ok response then json response else Rejected (Error "Failed to request")
    | Rejected _ => Rejected (Error "Failed to request")
    end
  /\ outcome (RaukInventory.request index requestArray) w
     = match fetch (RaukInventory.post index requestArray) with
       | Resolved response =>
           if ok response then json response else Rejected (Error "Failed to request")
       | Rejected _ => Rejected (Error "Failed to request")
       end.
Proof.
  split.
  - destruct (fetch (RaukInventoryClient.post this requestArray))
      as [response | e] eqn:Hfetch.
    + destruct (ok response) eqn:Hok.
      * unfold outcome. now rewrite (client_request_ok _ _ _ _ Hfetch Hok).
      * now apply (client_request_not_ok _ _ _ _ Hfetch Hok).
    + unfold outcome. now rewrite (client_request_fetch_rejected _ _ _ _ Hfetch).
  - destruct (fetch (RaukInventory.post index requestArray))
      as [response | e] eqn:Hfetch.
    + destruct (ok response) eqn:Hok.
      * unfold outcome. now rewrite (index_request_ok _ _ _ _ Hfetch Hok).
      * now apply (index_request_not_ok _ _ _ _ Hfetch Hok).
    + unfold outcome. now rewrite (index_request_fetch_rejected _ _ _ _ Hfetch).
Qed.

(** The console after a response that is not [ok] and whose body parsed. *)
Lemma client_request_not_ok_console (this : RaukInventoryClient.Client)
    (requestArray : list JSON) (w : World) (response : Response) (parsed : JSON) :
  fetch (RaukInventoryClient.post this requestArray) = Resolved response ->
  ok response = false ->
  json response = Resolved parsed ->
  console (after (RaukInventoryClient.request this requestArray) w)
  = console w
    ++ [LogStr (statusText response); LogJSON parsed;
        LogErr (match parsed with
                | JNull => TypeError null_read_message
                | _ =>
                    new_Error
                      (match get_prop parsed "error" with
                       | None => None
                       | Some JNull => None
                       | Some e => get_prop e "message"
                       end)
                end)].
Proof.
  intros Hfetch Hok Hjson. unfold RaukInventoryClient.request. run_async.
  rewrite Hfetch. simpl. rewrite Hok. simpl. rewrite Hjson. simpl.
  destruct parsed; simpl; rewrite <- ?app_assoc; reflexivity.
Qed.

End Outcomes.

(** ** What the console receives when the server refuses *)

Section Diagnostics.
Context `{Host}.

(** X3. When the response is not [ok] and its body carries a string under
    [error.message], the request writes three lines to the console, the
    status text, the parsed body and an [Error] with the server's message,
    issues its one call, and rejects with the generic error: the server's
    message reaches the console and never the caller. *)
Theorem server_message_is_logged
    (this : RaukInventoryClient.Client) (requestArray : list JSON) (w : World)
    (response : Response) (parsed e : JSON) (s : string) :
  fetch (RaukInventoryClient.post this requestArray) = Resolved response ->
  ok response = false ->
  json response = Resolved parsed ->
  get_prop parsed "error" = Some e ->
  get_prop e "message" = Some (JStr s) ->
  RaukInventoryClient.request this requestArray w
  = (Rejected (Error "Failed to request"),
     mkWorld (calls w ++ [RaukInventoryClient.post this requestArray])
             (console w ++ [LogStr (statusText response); LogJSON parsed;
                            LogErr (Error s)])).
Proof.
  intros Hfetch Hok Hjson Herror Hmessage.
  pose proof (client_request_not_ok this requestArray w response Hfetch Hok) as Hout.
  pose proof (client_request_posts_once this requestArray w) as Hcalls.
  pose proof (client_request_not_ok_console this requestArray w response parsed
                Hfetch Hok Hjson) as Hconsole.
  unfold outcome, after in *.
  destruct (RaukInventoryClient.request this requestArray w) as [settled [cs lines]].
  simpl in *. subst settled cs lines.
  assert (Hlogged :
            match parsed with
            | JNull => TypeError null_read_message
            | _ =>
                new_Error
                  (match get_prop parsed "error" with
                   | None => None
                   | Some JNull => None
                   | Some e => get_prop e "message"
                   end)
            end = Error s).
  { destruct parsed; try discriminate. rewrite Herror.
    destruct e; try discriminate. now rewrite Hmessage. }
  now rewrite Hlogged.
Qed.

(** X4. When the response is not [ok] and its parsed body, not [null], has
    no [error] property, or a [null] one, or an [error] without [message],
    the [Error] written to the console has the empty message; the caller
    still gets the generic error. *)
Theorem missing_server_message_logs_empty
    (this : RaukInventoryClient.Client) (requestArray : list JSON) (w : World)
    (response : Response) (parsed : JSON) :
  fetch (RaukInventoryClient.post this requestArray) = Resolved response ->
  ok response = false ->
  json response = Resolved parsed ->
  parsed <> JNull ->
  (get_prop parsed "error" = None
   \/ get_prop parsed "error" = Some JNull
   \/ exists e, get_prop parsed "error" = Some e /\ get_prop e "message" = None) ->
  RaukInventoryClient.request this requestArray w
  = (Rejected (Error "Failed to request"),
     mkWorld (calls w ++ [RaukInventoryClient.post this requestArray])
             (console w ++ [LogStr (statusText response); LogJSON parsed;
                            LogErr (Error "")])).
Proof.
  intros Hfetch Hok Hjson Hnotnull Hmissing.
  pose proof (client_request_not_ok this requestArray w response Hfetch Hok) as Hout.
  pose proof (client_request_posts_once this requestArray w) as Hcalls.
  pose proof (client_request_not_ok_console this requestArray w response parsed
                Hfetch Hok Hjson) as Hconsole.
  unfold outcome, after in *.
  destruct (RaukInventoryClient.request this requestArray w) as [settled [cs lines]].
  simpl in *. subst settled cs lines.
  assert (Hlogged :
            match parsed with
            | JNull => TypeError null_read_message
            | _ =>
                new_Error
                  (match get_prop parsed "error" with
                   | None => None
                   | Some JNull => None
                   | Some e => get_prop e "message"
                   end)
            end = Error "").
  { destruct parsed; try contradiction;
      destruct Hmissing as [-> | [-> | [e [-> Hmsg]]]]; try reflexivity;
      destruct e; simpl in *; try reflexivity; now rewrite Hmsg. }
  now rewrite Hlogged.
Qed.

End Diagnostics.

(** X3 on the answer of the authentication test: status 401 and
    [{ error: { message: "Invalid API credentials" } }]. *)
Lemma server_message_is_logged_witness :
  let body := JObj [("error", JObj [("message", JStr "Invalid API credentials")])] in
  let host := Mock.host (Resolved (mkResponse false 401 "Unauthorized" (Resolved body))) in
  @RaukInventoryClient.request host Mock.client [JStr "find"; Mock.sku_query] Mock.fresh
  = (Rejected (Error "Failed to request"),
     mkWorld
       [@RaukInventoryClient.post host Mock.client [JStr "find"; Mock.sku_query]]
       [LogStr "Unauthorized"; LogJSON body; LogErr (Error "Invalid API credentials")]).
Proof.
  intros body host.
  apply (@server_message_is_logged host Mock.client [JStr "find"; Mock.sku_query]
           Mock.fresh (mkResponse false 401 "Unauthorized" (Resolved body)) body
           (JObj [("message", JStr "Invalid API credentials")])
           "Invalid API credentials");
    reflexivity.
Defined.

(** X4 on a 500 answer whose body is [{ success: false }]. *)
Lemma missing_server_message_logs_empty_witness :
  let body := JObj [("success", JBool false)] in
  let host :=
    Mock.host (Resolved (mkResponse false 500 "Internal Server Error" (Resolved body))) in
  @RaukInventoryClient.request host Mock.client [JStr "find"; Mock.sku_query] Mock.fresh
  = (Rejected (Error "Failed to request"),
     mkWorld
       [@RaukInventoryClient.post host Mock.client [JStr "find"; Mock.sku_query]]
       [LogStr "Internal Server Error"; LogJSON body; LogErr (Error "")]).
Proof.
  intros body host.
  apply (@missing_server_message_logs_empty host Mock.client
           [JStr "find"; Mock.sku_query] Mock.fresh
           (mkResponse false 500 "Internal Server Error" (Resolved body)) body).
  - reflexivity.
  - reflexivity.
  - reflexivity.
  - discriminate.
  - left; reflexivity.
Defined.

(** ** Answers, one by one *)

Section Answers.
Variable stringify : list JSON -> string.
Variable sign : Credentials -> list JSON -> string.

(** X5. A response that is not [ok] and whose body is the JSON [null]
    makes the request write the status text, then [null], then the
    [TypeError] of the property read on [null]; one whose body does not
    parse makes it write the status text and the parser's error, and no
    body. In both cases the one call is issued and the caller gets the
    generic error. *)
Theorem refusal_with_null_or_unparseable_body
    (code : Z) (text : string) (parse_error : JsError)
    (this : RaukInventoryClient.Client) (requestArray : list JSON) (w : World) :
  @RaukInventoryClient.request
    (answering stringify sign (Resolved (mkResponse false code text (Resolved JNull))))
    this requestArray w
  = (Rejected (Error "Failed to request"),
     mkWorld
       (calls w
        ++ [@RaukInventoryClient.post
              (answering stringify sign
                 (Resolved (mkResponse false code text (Resolved JNull))))
              this requestArray])
       (console w
        ++ [LogStr text; LogJSON JNull;
            LogErr (TypeError "Cannot read properties of null (reading 'error')")]))
  /\ @RaukInventoryClient.request
       (answering stringify sign
          (Resolved (mkResponse false code text (Rejected parse_error))))
       this requestArray w
     = (Rejected (Error "Failed to request"),
        mkWorld
          (calls w
           ++ [@RaukInventoryClient.post
                 (answering stringify sign
                    (Resolved (mkResponse false code text (Rejected parse_error))))
                 this requestArray])
          (console w ++ [LogStr text; LogErr parse_error])).
Proof.
  split; unfold RaukInventoryClient.request; run_async;
    rewrite <- ?app_assoc; reflexivity.
Qed.

(** X1. When the response is [ok] and its body parses, every public
    method of [RaukInventoryClient] other than [findOne] resolves to the
    parsed body as it is; [findOne] resolves to the first element of a
    body that is an array, or to [null] when the array is empty. In every
    case the one request is issued and nothing is written to the console. *)
Theorem ok_response_resolves_to_body
    (code : Z) (text : string) (parsed : JSON)
    (this : RaukInventoryClient.Client) (call : Surface.Call) (options : option Obj)
    (w : World) :
  after
    (@Surface.invoke
       (answering stringify sign (Resolved (mkResponse true code text (Resolved parsed))))
       this call options) w
  = mkWorld
      (calls w
       ++ [@RaukInventoryClient.post
             (answering stringify sign
                (Resolved (mkResponse true code text (Resolved parsed))))
             this (Surface.encoded call options)])
      (console w)
  /\ match call with
     | Surface.FindOne _ =>
         match parsed with
         | JArr items =>
             outcome
               (@Surface.invoke
                  (answering stringify sign
                     (Resolved (mkResponse true code text (Resolved parsed))))
                  this call options) w
             = Resolved (match items with first :: _ => first | [] => JNull end)
         | _ => True
         end
     | _ =>
         outcome
           (@Surface.invoke
              (answering stringify sign
                 (Resolved (mkResponse true code text (Resolved parsed))))
              this call options) w
         = Resolved parsed
     end.
Proof.
  split.
  - destruct call; try reflexivity. destruct parsed; reflexivity.
  - destruct call; try reflexivity. destruct parsed; try exact I. reflexivity.
Qed.

(** X8. When the response is [ok] and its body is the JSON [null], [find]
    resolves to [null], while [findOne] rejects with a [TypeError]: it
    reads the length of the result. The error does not pass through the
    [catch] block of [request]: nothing is written to the console. *)
Theorem findOne_rejects_on_null_body
    (code : Z) (text : string)
    (this : RaukInventoryClient.Client) (query : JSON) (options : option Obj)
    (w : World) :
  outcome
    (@RaukInventoryClient.find
       (answering stringify sign (Resolved (mkResponse true code text (Resolved JNull))))
       this query options) w
  = Resolved JNull
  /\ (exists msg,
        outcome
          (@RaukInventoryClient.findOne
             (answering stringify sign
                (Resolved (mkResponse true code text (Resolved JNull))))
             this query options) w
        = Rejected (TypeError msg))
  /\ console
       (after
          (@RaukInventoryClient.findOne
             (answering stringify sign
                (Resolved (mkResponse true code text (Resolved JNull))))
             this query options) w)
     = console w.
Proof.
  split; [reflexivity |]. split; [eexists; reflexivity | reflexivity].
Qed.

(** X13. The [request] of the second revision of [index.ts]: a response
    that is not [ok] is refused without reading its body (the status text
    and the generic error are the two lines written to the console,
    whatever the body is); a [fetch] that rejects has its error written to
    the console; either way the caller gets the generic error. An [ok]
    response settles the request as its body does, with a silent console. *)
Theorem rev2_request_outcomes
    (code : Z) (text : string) (body : Settled JSON) (thrown : JsError)
    (this : RaukInventoryRev2.Client) (requestArray : list JSON) (w : World) :
  @RaukInventoryRev2.request
    (answering stringify sign (Resolved (mkResponse false code text body)))
    this requestArray w
  = (Rejected (Error "Failed to request"),
     mkWorld
       (calls w
        ++ [@RaukInventoryRev2.post
              (answering stringify sign (Resolved (mkResponse false code text body)))
              this requestArray])
       (console w ++ [LogStr text; LogErr (Error "Failed to request")]))
  /\ @RaukInventoryRev2.request (answering stringify sign (Rejected thrown))
       this requestArray w
     = (Rejected (Error "Failed to request"),
        mkWorld
          (calls w
           ++ [@RaukInventoryRev2.post (answering stringify sign (Rejected thrown))
                 this requestArray])
          (console w ++ [LogErr thrown]))
  /\ @RaukInventoryRev2.request
       (answering stringify sign (Resolved (mkResponse true code text body)))
       this requestArray w
     = (body,
        mkWorld
          (calls w
           ++ [@RaukInventoryRev2.post
                 (answering stringify sign (Resolved (mkResponse true code text body)))
                 this requestArray])
          (console w)).
Proof.
  repeat split; unfold RaukInventoryRev2.request; run_async;
    rewrite <- ?app_assoc; reflexivity.
Qed.

End Answers.

(** ** The options of [findOne] *)

Section FindOneOptions.
Context `{Host}.

(** X6. Setting [limit] in the options given to [findOne] changes
    nothing: for any options [o] and any value, the call with [o] in which
    [limit] is set to that value (an existing [limit] overwritten in its
    place, or [limit] added as the last option when [o] has none) behaves
    exactly as the call with [o], hence as the call with any other value
    under [limit]; and a call without options behaves as a
    call with the empty options object. The same holds for
    [findOneFlexible]. Options that hold the same properties in another
    order are another object and are not compared here. *)
Theorem findOne_ignores_caller_limit
    (this : RaukInventoryClient.Client) (index : RaukInventory.Client)
    (query : JSON) (o : Obj) (limit other : JSON) (w : World) :
  RaukInventoryClient.findOne this query (Some (set_prop "limit" limit o)) w
  = RaukInventoryClient.findOne this query (Some o) w
  /\ RaukInventoryClient.findOne this query (Some (set_prop "limit" limit o)) w
     = RaukInventoryClient.findOne this query (Some (set_prop "limit" other o)) w
  /\ RaukInventoryClient.findOne this query None w
     = RaukInventoryClient.findOne this query (Some []) w
  /\ RaukInventory.findOneFlexible index query (Some (set_prop "limit" limit o)) w
     = RaukInventory.findOneFlexible index query (Some o) w
  /\ RaukInventory.findOneFlexible index query None w
     = RaukInventory.findOneFlexible index query (Some []) w.
Proof.
  unfold RaukInventoryClient.findOne, RaukInventory.findOneFlexible. simpl.
  rewrite !set_prop_overwrites. repeat split.
Qed.

(** X7. The options object [findOne] sends holds the caller's other
    options, with their values and in their order, and the caller's keys:
    [limit] keeps its place when the caller has one and is added last
    otherwise. *)
Theorem findOne_passes_other_options
    (this : RaukInventoryClient.Client) (query : JSON) (options : option Obj)
    (w : World) :
  exists sent : Obj,
    calls (after (RaukInventoryClient.findOne this query options) w)
    = calls w ++ [RaukInventoryClient.post this [JStr "find"; query; JObj sent]]
    /\ without_key "limit" sent = without_key "limit" (spread options)
    /\ map fst sent
       = match lookup "limit" (spread options) with
         | Some _ => map fst (spread options)
         | None => map fst (spread options) ++ ["limit"]
         end.
Proof.
  exists (set_prop "limit" (JNum 1) (spread options)).
  split.
  { unfold RaukInventoryClient.findOne. rewrite first_item_keeps_world.
    unfold RaukInventoryClient.find. apply client_request_posts_once. }
  split; [apply without_key_set_prop | apply set_prop_keys].
Qed.

End FindOneOptions.

(** ** Methods that are other methods *)

Section Relations.
Context `{Host}.

(** X9. The soft delete is an update: [delete(query, options)] is, call
    for call and result for result, [update(query, {deleted: {status:
    true}}, options)], in [RaukInventoryClient] and in [RaukInventory]. *)
Theorem delete_is_update_of_deleted_status
    (this : RaukInventoryClient.Client) (index : RaukInventory.Client)
    (query : JSON) (options : option Obj) (w : World) :
  RaukInventoryClient.delete this query options w
  = RaukInventoryClient.update this query
      (JObj [("deleted", JObj [("status", JBool true)])]) options w
  /\ RaukInventory.delete index query options w
     = RaukInventory.update index query
         (JObj [("deleted", JObj [("status", JBool true)])]) options w.
Proof.
  split; destruct options; reflexivity.
Qed.

End Relations.

(** ** The shape of the tuples *)

(** X11. Whatever the method and its arguments, the tuple it encodes
    starts with one of the eight command names, continues with at least
    one and at most three arguments, and, when the caller supplied
    options, has an object as its last element. *)
Theorem encoded_tuple_shape (call : Surface.Call) (options : option Obj) :
  exists (command : string) (arguments : list JSON),
    Surface.encoded call options = JStr command :: arguments
    /\ In command command_names
    /\ 1 <= length arguments <= 3
    /\ match options with
       | Some _ => exists o, last arguments JNull = JObj o
       | None => True
       end.
Proof.
  destruct call, options as [o |]; simpl;
    eexists; eexists; (split; [reflexivity |]);
    (split; [simpl; tauto |]); (split; [simpl; lia |]);
    try exact I; eexists; reflexivity.
Qed.

(** ** From the configuration to the wire *)

Section EndToEnd.
Context `{Host}.

(** X12. With three non-empty credentials, a program that constructs a
    client and calls one of its methods issues exactly one request: a POST
    to the configured base URL (the production host when none is given;
    an empty one is kept as it is) followed by [/query], signed with
    exactly the three configured credentials, carrying the serialized
    tuple. *)
Theorem configured_client_wire
    (cfg : Config) (call : Surface.Call) (options : option Obj) (w : World) :
  cfg_apiKeyId cfg <> "" ->
  cfg_apiSecret cfg <> "" ->
  cfg_apiPublicKey cfg <> "" ->
  calls
    (after
       (Surface.with_new_client cfg (fun client => Surface.invoke client call options))
       w)
  = calls w
    ++ [mkHttpRequest
          ((match cfg_apiBaseUrl cfg with
            | Some u => u
            | None => "https://inventory.rauk.app"
            end) ++ "/query")%string
          "POST"
          (Some (JSON_stringify (Surface.encoded call options)))
          [("Rai-Signature",
            signRequest
              (mkCredentials (cfg_apiKeyId cfg) (cfg_apiSecret cfg) (cfg_apiPublicKey cfg))
              (Surface.encoded call options));
           ("Content-Type", "application/json")]].
Proof.
  intros Hk Hs Hp. unfold Surface.with_new_client, RaukInventoryClient.constructor.
  destruct cfg as [k s p u]; simpl in *.
  destruct k; [contradiction |]. destruct s; [contradiction |].
  destruct p; [contradiction |]. simpl.
  apply invoke_posts_encoded.
Qed.

(** X14. [RaukInventoryClient.updateBatch] issues one [bulkWrite] request
    whose operations array has one entry per pair, in order, with the
    pair's query as [updateOne.filter] and its update document as
    [updateOne.update]; an empty list of pairs still issues the request,
    with an empty operations array. *)
Theorem client_updateBatch_entries
    (this : RaukInventoryClient.Client) (updates : list (JSON * JSON))
    (options : option Obj) (w : World) :
  exists operations : list JSON,
    calls (after (RaukInventoryClient.updateBatch this updates options) w)
    = calls w
      ++ [RaukInventoryClient.post this
            (JStr "bulkWrite" :: JArr operations
             :: match options with Some o => [JObj o] | None => [] end)]
    /\ length operations = length updates
    /\ map (entry_field "filter") operations = map (fun qu => Some (fst qu)) updates
    /\ map (entry_field "update") operations = map (fun qu => Some (snd qu)) updates
    /\ Forall (fun op => exists body, op = JObj [("updateOne", body)]) operations.
Proof.
  exists (RaukInventoryClient.bulkOperations updates).
  split.
  { rewrite client_updateBatch_one_bulkWrite. now destruct options. }
  split; [apply client_bulkOperations_length |].
  split; [apply client_batch_entries |].
  split; [apply client_batch_entries |].
  unfold RaukInventoryClient.bulkOperations. apply Forall_forall.
  intros op Hin. apply in_map_iff in Hin as [[q u] [<- _]]. now eexists.
Qed.

End EndToEnd.

(** X12 with the configuration of the tests, base URL omitted. *)
Lemma configured_client_wire_witness :
  calls
    (after
       (Surface.with_new_client (mkConfig "test-key" "test-secret" "test-public" None)
          (fun client =>
             @Surface.invoke (Mock.host (Mock.items_response []))
               client (Surface.Find Mock.sku_query) None))
       Mock.fresh)
  = [mkHttpRequest "https://inventory.rauk.app/query" "POST"
       (Some (Mock.show (JArr [JStr "find"; Mock.sku_query])))
       [("Rai-Signature",
         Mock.sign (mkCredentials "test-key" "test-secret" "test-public")
           [JStr "find"; Mock.sku_query]);
        ("Content-Type", "application/json")]].
Proof.
  apply (@configured_client_wire (Mock.host (Mock.items_response []))
           (mkConfig "test-key" "test-secret" "test-public" None)
           (Surface.Find Mock.sku_query) None Mock.fresh);
    discriminate.
Defined.
